(** * GPBayesianOptimization: the GP-based Bayesian optimization loop

    A shallow embedding of
    [emukit/bayesian_optimization/methods/single_objective_bayesian_optimization.py]
    and of the acquisition package it imports from.

    Python objects live in a heap addressed by allocation order, so that two
    attributes holding the same object hold the same address.  Numerical
    collaborators (GPy, the acquisition optimizer, the objective) are never
    computed: the embedding records which calls the code makes on them, with
    which arguments and in which order. *)

From Stdlib Require Import ZArith QArith List Lia.
From stdpp Require Import base option list.
Import ListNotations.

Local Open Scope Z_scope.

(** ** Enumerations of the module *)

(** [class AcquisitionType(Enum)]: EI, PI, NLCB. *)
Inductive AcquisitionType := EI | PI | NLCB.

(** [class OptimizerType(Enum)]: LBFGS. *)
Inductive OptimizerType := LBFGS.

(** The names exported by [acquisitions/__init__.py]. *)
Inductive AcquisitionClass :=
| ExpectedImprovement
| NegativeLowerConfidenceBound
| ProbabilityOfImprovement
| EntropySearch.

Definition acquisitions_exports : list AcquisitionClass :=
  [ExpectedImprovement; NegativeLowerConfidenceBound;
   ProbabilityOfImprovement; EntropySearch].

(** The names the method module imports from [..acquisitions]. *)
Definition acquisitions_imported : list AcquisitionClass :=
  [ExpectedImprovement; NegativeLowerConfidenceBound; ProbabilityOfImprovement].

(** ** Exceptions *)

Inductive Error :=
| InvalidDomainError
| InvalidModelOutputError
| EvaluationError
| IndexError.

(** How a run ends: normally, by an exception (with the state it leaves), or
    with the iteration bound of the model exhausted. *)
Inductive Outcome (A : Type) :=
| Finished (a : A)
| Raised (e : Error) (a : A)
| OutOfFuel.
Arguments Finished {A} a.
Arguments Raised {A} e a.
Arguments OutOfFuel {A}.

(** ** GPy objects *)

(** Addresses of heap objects. *)
Abbreviation addr := nat.

(** [Matern52(input_dim, variance=..., ARD=...)]; the float literals of the
    source are written as the rationals they denote. *)
Inductive Kernel :=
| Matern52 (input_dim : nat) (variance : Q) (ARD : bool).

(** State of the [Gaussian_noise] parameter of a GP model. *)
Inductive GaussianNoise :=
| Free
| Fixed (value : Q).

(** Method calls received by a GP model, in the order they were made.
    [optimize_call] remembers the state of the noise parameter the
    optimizer saw. *)
Inductive GPCall :=
| optimize_call (noise : GaussianNoise)
| constrain_fixed_call (value : Q)
| update_call (rows : nat).

(** Arguments a Python constructor can receive here. *)
Inductive value :=
| VNone
| VRef (a : addr)
| VFloat (x : Q).

Section Loop.

(** Entries of [variables_list], rows of the input array, rows of the output
    array.  The module never looks inside any of them. *)
Context {variable point output : Type}.

Record GPRegression := {
  kern : Kernel;
  gp_X : list point;
  gp_Y : list output;
  Gaussian_noise : GaussianNoise;
  gp_calls : list GPCall
}.

Inductive PyObject :=
| GPRegressionObj (g : GPRegression)
| GPyModelWrapperObj (gpmodel : addr)
| AcquisitionObj (cls : AcquisitionClass) (args : list value).

(** The heap: the object at address [a] is the element of index [a]. *)
Local Abbreviation Heap := (list PyObject).

(** ** A state monad over the heap *)

Definition ST (A : Type) : Type := Heap -> A * Heap.

Definition ret {A} (a : A) : ST A := fun h => (a, h).

Definition bind {A B} (m : ST A) (k : A -> ST B) : ST B :=
  fun h => let '(a, h') := m h in k a h'.

Notation "x <- m ;; k" := (bind m (fun x => k))
  (at level 100, m at next level, right associativity).
Notation "m ;;; k" := (bind m (fun _ => k))
  (at level 100, right associativity).

(** Object creation: the new object gets the next address. *)
Definition alloc (o : PyObject) : ST addr :=
  fun h => (length h, h ++ [o]).

(** In-place mutation of the GP model stored at [a]. *)
Definition mutate_gp (a : addr) (f : GPRegression -> GPRegression) : ST unit :=
  fun h =>
    match h !! a with
    | Some (GPRegressionObj g) => (tt, <[a := GPRegressionObj (f g)]> h)
    | _ => (tt, h)
    end.

(** [GPRegression(X, Y, kernel)] *)
Definition new_GPRegression (X : list point) (Y : list output) (k : Kernel)
  : GPRegression :=
  {| kern := k; gp_X := X; gp_Y := Y; Gaussian_noise := Free; gp_calls := [] |}.

(** [gpmodel.optimize()] *)
Definition optimize (g : GPRegression) : GPRegression :=
  {| kern := kern g; gp_X := gp_X g; gp_Y := gp_Y g;
     Gaussian_noise := Gaussian_noise g;
     gp_calls := gp_calls g ++ [optimize_call (Gaussian_noise g)] |}.

(** [gpmodel.Gaussian_noise.constrain_fixed(v)] *)
Definition constrain_fixed (v : Q) (g : GPRegression) : GPRegression :=
  {| kern := kern g; gp_X := gp_X g; gp_Y := gp_Y g;
     Gaussian_noise := Fixed v;
     gp_calls := gp_calls g ++ [constrain_fixed_call v] |}.

(** ** The parameter space *)

(** [ParameterSpace(variables_list)] *)
Record ParameterSpace := { parameters : list variable }.

(** Membership test of the parameter space, an external capability. *)
Context (contains : ParameterSpace -> point -> bool).

(** ** Constructor arguments of [GPBayesianOptimization] *)

Record Config := {
  variables_list : list variable;
  X : list point;
  Y : list output;
  noiseless : bool;
  acquisition_type : AcquisitionType;
  normalize_Y : bool;
  acquisition_optimizer_type : OptimizerType;
  model_update_interval : Z
}.

(** The call with every keyword argument left at its default. *)
Definition default_config (vars : list variable) (X0 : list point)
  (Y0 : list output) : Config :=
  {| variables_list := vars; X := X0; Y := Y0;
     noiseless := false;
     acquisition_type := EI;
     normalize_Y := true;
     acquisition_optimizer_type := LBFGS;
     model_update_interval := 1 |}.

(** ** The three choosers *)

(** [_model_chooser]: builds the kernel and the GP model, optimizes it, wraps
    it, fixes the noise when [noiseless], and wraps it again; [self.model] is
    the second wrapper. *)
Definition _model_chooser (self : Config) : ST addr :=
  let kernel := Matern52 (length (variables_list self)) 1%Q false in
  gpmodel <- alloc (GPRegressionObj (new_GPRegression (X self) (Y self) kernel)) ;;
  mutate_gp gpmodel optimize ;;;
  _ <- alloc (GPyModelWrapperObj gpmodel) ;;
  (if noiseless self
   then mutate_gp gpmodel (constrain_fixed (1 # 1000)%Q)
   else ret tt) ;;;
  model <- alloc (GPyModelWrapperObj gpmodel) ;;
  ret model.

(** The GP model [_model_chooser] leaves behind. *)
Definition chosen_gp (self : Config) : GPRegression :=
  let g := optimize (new_GPRegression (X self) (Y self)
                       (Matern52 (length (variables_list self)) 1%Q false)) in
  if noiseless self then constrain_fixed (1 # 1000)%Q g else g.

(** The acquisition class that goes with each enum value, as the docstring
    of [__init__] lists them (EI: expected improvement, PI: probability of
    improvement, NLCB: negative lower confidence bound). *)
Definition acquisition_class (t : AcquisitionType) : AcquisitionClass :=
  match t with
  | EI => ExpectedImprovement
  | PI => ProbabilityOfImprovement
  | NLCB => NegativeLowerConfidenceBound
  end.

(** [_acquisition_chooser]: every branch calls the class on [self.model]
    alone. *)
Definition _acquisition_chooser (self : Config) (model : addr) : ST addr :=
  match acquisition_type self with
  | EI => alloc (AcquisitionObj ExpectedImprovement [VRef model])
  | PI => alloc (AcquisitionObj ProbabilityOfImprovement [VRef model])
  | NLCB => alloc (AcquisitionObj NegativeLowerConfidenceBound [VRef model])
  end.

(** ** Loop state, candidate points and their calculator *)

(** The record of all observations and the iteration counter; [ls_X] and
    [ls_Y] are its input and output arrays. *)
Record LoopState := {
  ls_X : list point;
  ls_Y : list output;
  iteration : Z
}.

(** An element of the sequence returned by [compute_next_points]; [cp_X] is
    its attribute [X]. *)
Record CandidatePoint := { cp_X : point }.

(** A candidate point calculator.  It receives the loop state object and can
    reach the model through the heap; being Python code it could write to
    both, so it returns them.  It returns a sequence of candidate points, or
    raises: scoring the acquisition against a surrogate model that reports a
    negative variance raises [InvalidModelOutputError]. *)
Record Calculator := {
  compute_next_points :
    LoopState -> Heap -> (Error + list CandidatePoint) * (LoopState * Heap)
}.

(** The objective: [evaluate] returns the outputs for a batch of inputs, or
    [None] when it raises or returns malformed output. *)
Record UserFunction := { evaluate : list point -> option (list output) }.

(** A stopping condition is a predicate over the loop state. *)
Record StoppingCondition := { should_stop : LoopState -> bool }.

(** Modelled from the spec: [FixedIterationsStoppingCondition] of
    [core.loop], which is imported but not part of the sources; it is true
    once the iteration counter reaches [n]. *)
Definition FixedIterationsStoppingCondition (n : Z) : StoppingCondition :=
  {| should_stop := fun ls => n <=? iteration ls |}.

(** [_evaluator_chooser]: [self.evaluator = None] whatever the configuration. *)
Definition _evaluator_chooser (self : Config) : option Calculator := None.

(** ** The parent class *)

(** The keyword arguments of the call to the parent constructor. *)
Record SuperArgs := {
  arg_model : addr;
  arg_space : ParameterSpace;
  arg_acquisition : addr;
  arg_X_init : list point;
  arg_Y_init : list output;
  arg_candidate_point_calculator : option Calculator
}.

(** The attributes the parent class keeps on the object. *)
Record BayesianOptimizationLoop := {
  candidate_point_calculator : Calculator;
  loop_model : addr;
  loop_space : ParameterSpace;
  update_interval : Z;
  loop_state : LoopState
}.

(** The calculator the parent class builds for itself, from the acquisition
    and the space, when it is handed [None]; an external collaborator. *)
Context (default_calculator : addr -> ParameterSpace -> Calculator).

(** Modelled from the spec: the [update(X, Y)] capability of the surrogate
    model, which makes the training set of the wrapped model equal to the
    given observations. *)
Definition set_training_data (Xs : list point) (Ys : list output)
  (m : GPRegression) : GPRegression :=
  {| kern := kern m; gp_X := Xs; gp_Y := Ys;
     Gaussian_noise := Gaussian_noise m;
     gp_calls := gp_calls m ++ [update_call (length Xs)] |}.

Definition surrogate_update (model : addr) (Xs : list point) (Ys : list output)
  : ST unit :=
  fun h =>
    match h !! model with
    | Some (GPyModelWrapperObj g) => mutate_gp g (set_training_data Xs Ys) h
    | _ => (tt, h)
    end.

(** Modelled from the spec: the constructor of [BayesianOptimizationLoop]
    (package [..loops], not part of the sources).  It checks that every
    initial input lies in the parameter space and fails with
    [InvalidDomainError] otherwise, fits the surrogate model once against
    the initial observations and initializes the loop state.  It receives no
    update interval, so the interval is the default of the configuration
    surface, 1. *)
Definition BayesianOptimizationLoop__init__ (a : SuperArgs) (h : Heap)
  : Error + BayesianOptimizationLoop * Heap :=
  if forallb (contains (arg_space a)) (arg_X_init a) then
    let '(_, h') := surrogate_update (arg_model a) (arg_X_init a) (arg_Y_init a) h in
    inr ({| candidate_point_calculator :=
              match arg_candidate_point_calculator a with
              | Some c => c
              | None => default_calculator (arg_acquisition a) (arg_space a)
              end;
            loop_model := arg_model a;
            loop_space := arg_space a;
            update_interval := 1;
            loop_state := {| ls_X := arg_X_init a; ls_Y := arg_Y_init a;
                             iteration := 0 |} |}, h')
  else inl InvalidDomainError.

(** ** The class itself *)

(** A constructed object: the eight constructor arguments stored verbatim
    ([attrs]), the attributes set by the constructor and its choosers, and
    the attributes set by the parent constructor ([loop]). *)
Record GPBayesianOptimization := {
  attrs : Config;
  space : ParameterSpace;
  model : addr;
  acquisition : addr;
  evaluator : option Calculator;
  loop : BayesianOptimizationLoop
}.

(** The part of [__init__] that precedes the call to the parent constructor:
    steps 1 to 4, and the arguments of that call. *)
Definition super_arguments (self : Config) : ST SuperArgs :=
  let space := {| parameters := variables_list self |} in
  model <- _model_chooser self ;;
  acquisition <- _acquisition_chooser self model ;;
  let evaluator := _evaluator_chooser self in
  ret {| arg_model := model;
         arg_space := space;
         arg_acquisition := acquisition;
         arg_X_init := X self;
         arg_Y_init := Y self;
         arg_candidate_point_calculator := evaluator |}.

(** [GPBayesianOptimization.__init__] *)
Definition GPBayesianOptimization__init__ (self : Config) (h : Heap)
  : Error + GPBayesianOptimization * Heap :=
  let '(a, h1) := super_arguments self h in
  match BayesianOptimizationLoop__init__ a h1 with
  | inl e => inl e
  | inr (l, h2) =>
      inr ({| attrs := self;
              space := arg_space a;
              model := arg_model a;
              acquisition := arg_acquisition a;
              evaluator := arg_candidate_point_calculator a;
              loop := l |}, h2)
  end.

(** The loop attributes and the heap a constructor call ends with. *)
Definition constructed_loop (self : Config) (h : Heap)
  : Error + BayesianOptimizationLoop * Heap :=
  match GPBayesianOptimization__init__ self h with
  | inl e => inl e
  | inr (obj, h') => inr (loop obj, h')
  end.

(** Replaces the loop state object held by [self]. *)
Definition with_loop_state (l : BayesianOptimizationLoop) (ls : LoopState)
  : BayesianOptimizationLoop :=
  {| candidate_point_calculator := candidate_point_calculator l;
     loop_model := loop_model l;
     loop_space := loop_space l;
     update_interval := update_interval l;
     loop_state := ls |}.

Definition with_loop (self : GPBayesianOptimization) (l : BayesianOptimizationLoop)
  : GPBayesianOptimization :=
  {| attrs := attrs self; space := space self; model := model self;
     acquisition := acquisition self; evaluator := evaluator self;
     loop := l |}.

(** [suggest_new_locations]:
    [self.candidate_point_calculator.compute_next_points(self.loop_state)[0].X].
    An exception of the calculator passes through; indexing an empty result
    raises [IndexError]. *)
Definition suggest_new_locations (self : GPBayesianOptimization) (h : Heap)
  : (Error + point) * (GPBayesianOptimization * Heap) :=
  let l := loop self in
  let '(result, (ls', h')) :=
    compute_next_points (candidate_point_calculator l) (loop_state l) h in
  (match result with
   | inl e => inl e
   | inr points =>
       match points !! 0%nat with
       | Some p => inr (cp_X p)
       | None => inl IndexError
       end
   end,
   (with_loop self (with_loop_state l ls'), h')).

(** The same constructor call with another [model_update_interval]. *)
Definition with_model_update_interval (self : Config) (k : Z) : Config :=
  {| variables_list := variables_list self; X := X self; Y := Y self;
     noiseless := noiseless self;
     acquisition_type := acquisition_type self;
     normalize_Y := normalize_Y self;
     acquisition_optimizer_type := acquisition_optimizer_type self;
     model_update_interval := k |}.

(** The same constructor call with another [acquisition_optimizer_type]. *)
Definition with_acquisition_optimizer_type (self : Config) (o : OptimizerType)
  : Config :=
  {| variables_list := variables_list self; X := X self; Y := Y self;
     noiseless := noiseless self;
     acquisition_type := acquisition_type self;
     normalize_Y := normalize_Y self;
     acquisition_optimizer_type := o;
     model_update_interval := model_update_interval self |}.

(** [chooses self m h cls args]: on object [self] with [self.model = m] and
    heap [h], [_acquisition_chooser] creates an instance of class [cls] from
    the arguments [args]. *)
Definition chooses (self : Config) (m : addr) (h : Heap)
  (cls : AcquisitionClass) (args : list value) : Prop :=
  let '(a, h') := _acquisition_chooser self m h in
  h' !! a = Some (AcquisitionObj cls args).

(** An acquisition class is selectable when some value of the
    acquisition-type enumeration makes the constructor instantiate it. *)
Definition selectable (cls : AcquisitionClass) : Prop :=
  exists (self : Config) (m : addr) (h : Heap) (args : list value),
    chooses self m h cls args.

(** The acquisition built for enum value [t] is handed an exploration
    parameter: a real number among the arguments of its constructor. *)
Definition receives_exploration_parameter (t : AcquisitionType) : Prop :=
  exists (self : Config) (m : addr) (h : Heap)
         (cls : AcquisitionClass) (args : list value) (xi : Q),
    acquisition_type self = t /\ chooses self m h cls args /\ In (VFloat xi) args.

(** ** Running the loop *)

(** What a run can be observed to do. *)
Inductive Event :=
| Evaluated (batch : list point)
| Refit (at_iteration : Z).

Record RunState := {
  rs_loop : BayesianOptimizationLoop;
  rs_heap : Heap;
  rs_events : list Event
}.

(** Whether an output row has the declared output dimensionality, an
    external capability. *)
Context (well_shaped : output -> bool).

(** Modelled from the spec: steps (1) to (5) of [run], which is [run_loop]
    of the parent classes (not part of the sources).  The step aborts, with
    nothing appended, when the calculator raises, when a proposed point lies
    outside the parameter space ([InvalidDomainError]), and when the
    objective raises or returns output that is not one well-shaped row per
    input ([EvaluationError]); the state it then leaves is the one the
    calculator left. *)
Definition iteration_step (user_function : UserFunction) (s : RunState)
  : Error * RunState + RunState :=
  let l := rs_loop s in
  let '(result, (ls1, h1)) :=
    compute_next_points (candidate_point_calculator l) (loop_state l) (rs_heap s) in
  let s1 := {| rs_loop := with_loop_state l ls1; rs_heap := h1;
               rs_events := rs_events s |} in
  match result with
  | inl e => inl (e, s1)
  | inr points =>
      let xs := map cp_X points in
      if forallb (contains (loop_space l)) xs then
        match evaluate user_function xs with
        | None => inl (EvaluationError, s1)
        | Some ys =>
            if (length ys =? length xs)%nat && forallb well_shaped ys then
              let Xs := ls_X ls1 ++ xs in
              let Ys := ls_Y ls1 ++ ys in
              let refit := (iteration ls1 mod update_interval l =? 0) in
              let h2 := if refit
                        then snd (surrogate_update (loop_model l) Xs Ys h1)
                        else h1 in
              let ev := Evaluated xs
                          :: (if refit then [Refit (iteration ls1)] else []) in
              inr {| rs_loop := with_loop_state l
                                  {| ls_X := Xs; ls_Y := Ys;
                                     iteration := iteration ls1 + 1 |};
                     rs_heap := h2;
                     rs_events := rs_events s ++ ev |}
            else inl (EvaluationError, s1)
        end
      else inl (InvalidDomainError, s1)
  end.

(** Modelled from the spec: [run(objective, stopping_condition)]; step (6)
    checks the stopping condition after each iteration.  [fuel] bounds the
    number of iterations. *)
Fixpoint run_loop (fuel : nat) (user_function : UserFunction)
  (stopping_condition : StoppingCondition) (s : RunState) : Outcome RunState :=
  match fuel with
  | O => OutOfFuel
  | S fuel' =>
      match iteration_step user_function s with
      | inl (e, s1) => Raised e s1
      | inr s' =>
          if should_stop stopping_condition (loop_state (rs_loop s'))
          then Finished s'
          else run_loop fuel' user_function stopping_condition s'
      end
  end.

(** [run_optimization]:
    [self.run_loop(user_function, FixedIterationsStoppingCondition(num_iterations))] *)
Definition run_optimization (fuel : nat) (user_function : UserFunction)
  (num_iterations : Z) (s : RunState) : Outcome RunState :=
  run_loop fuel user_function (FixedIterationsStoppingCondition num_iterations) s.

(** [k] iterations of the loop body in a row, with no stopping test. *)
Fixpoint iterate_steps (k : nat) (user_function : UserFunction) (s : RunState)
  : Error * RunState + RunState :=
  match k with
  | O => inr s
  | S k' =>
      match iteration_step user_function s with
      | inl err => inl err
      | inr s1 => iterate_steps k' user_function s1
      end
  end.

(** A calculator that keeps its contract towards a loop on the space [sp]:
    it raises nothing, writes nothing and proposes points of [sp]. *)
Definition proposes_within (sp : ParameterSpace) (c : Calculator) : Prop :=
  forall ls h, exists points,
    compute_next_points c ls h = (inr points, (ls, h))
    /\ forallb (contains sp) (map cp_X points) = true.

(** An objective that answers every batch with one well-shaped output per
    input. *)
Definition answers (user_function : UserFunction) : Prop :=
  forall xs, exists ys,
    evaluate user_function xs = Some ys
    /\ length ys = length xs
    /\ forallb well_shaped ys = true.

(** The state in which a further run on the same object starts: the object
    and the heap as the last run left them, nothing observed yet. *)
Definition restart (s : RunState) : RunState :=
  {| rs_loop := rs_loop s; rs_heap := rs_heap s; rs_events := [] |}.

(** The state in which a run on a constructed object starts. *)
Definition start (self : GPBayesianOptimization) (h : Heap) : RunState :=
  {| rs_loop := loop self; rs_heap := h; rs_events := [] |}.

(** The objective-evaluation batches of a run, in order. *)
Definition batches (evs : list Event) : list (list point) :=
  omap (fun e => match e with Evaluated b => Some b | Refit _ => None end) evs.

(** The iteration counts at which the model was re-fit, in order. *)
Definition refits (evs : list Event) : list Z :=
  omap (fun e => match e with Refit i => Some i | Evaluated _ => None end) evs.

End Loop.

(** ** A concrete scenario

    One continuous variable with bounds [0, 10], initial observations at
    x = 2 (y = 4) and x = 8 (y = 2).  Points and outputs are integers; the
    calculator proposes two grid points derived from the number of
    observations, and reads the loop state and the heap without writing. *)
Module Scenario.

Definition variable : Type := Z * Z.
Definition point : Type := Z.
Definition output : Type := Z.

Definition contains (sp : @ParameterSpace variable) (x : point) : bool :=
  forallb (fun b : variable => (fst b <=? x) && (x <=? snd b)) (parameters sp).

(** Outputs are single numbers: every row has the declared dimension. *)
Definition well_shaped (y : output) : bool := true.

Definition grid_calculator (acquisition : addr) (sp : @ParameterSpace variable)
  : @Calculator point output :=
  {| compute_next_points := fun ls h =>
       let n := Z.of_nat (length (ls_X ls)) in
       (inr [ {| cp_X := (3 * n) mod 11 |}; {| cp_X := (3 * n + 5) mod 11 |} ],
        (ls, h)) |}.

(** A calculator that advances the iteration counter of the loop state it is
    handed. *)
Definition ticking_calculator (acquisition : addr) (sp : @ParameterSpace variable)
  : @Calculator point output :=
  {| compute_next_points := fun ls h =>
       (inr [ {| cp_X := iteration ls mod 11 |} ],
        ({| ls_X := ls_X ls; ls_Y := ls_Y ls; iteration := iteration ls + 1 |}, h)) |}.

Definition objective : @UserFunction point output :=
  {| evaluate := fun xs => Some (map (fun x => (x - 5) * (x - 5)) xs) |}.

(** An objective that raises on every batch. *)
Definition failing_objective : @UserFunction point output :=
  {| evaluate := fun xs => None |}.

Definition variables : list variable := [(0, 10)].

Definition config (t : AcquisitionType) (noiseless : bool) (interval : Z)
  : @Config variable point output :=
  {| variables_list := variables;
     X := [2; 8];
     Y := [4; 2];
     noiseless := noiseless;
     acquisition_type := t;
     normalize_Y := true;
     acquisition_optimizer_type := LBFGS;
     model_update_interval := interval |}.

(** Constructs the object on an empty heap and runs [n] iterations with the
    objective [f]. *)
Definition construct_and_run_with (f : @UserFunction point output)
  (c : @Config variable point output) (n : Z)
  : option (Outcome (@RunState variable point output)) :=
  match GPBayesianOptimization__init__ contains grid_calculator c [] with
  | inl _ => None
  | inr (self, h) =>
      Some (run_optimization contains well_shaped (Z.to_nat n) f n (start self h))
  end.

Definition construct_and_run (c : @Config variable point output) (n : Z)
  : option (Outcome (@RunState variable point output)) :=
  construct_and_run_with objective c n.

(** The iteration counts at which such a run re-fits the model. *)
Definition refit_iterations (c : @Config variable point output) (n : Z)
  : option (list Z) :=
  match construct_and_run c n with
  | Some (Finished s) => Some (refits (rs_events s))
  | _ => None
  end.

(** A second call [run_optimization(objective, n)] on the object a first
    such call has finished with. *)
Definition run_again (c : @Config variable point output) (n : Z)
  : option (Outcome (@RunState variable point output)) :=
  match construct_and_run c n with
  | Some (Finished s) =>
      Some (run_optimization contains well_shaped (Z.to_nat n) objective n
              (restart s))
  | _ => None
  end.

(** The object and the heap that [config EI false 1] constructs on an
    empty heap. *)
Definition grid_object : @GPBayesianOptimization variable point output :=
  {| attrs := config EI false 1;
     space := {| parameters := variables |};
     model := 2%nat;
     acquisition := 3%nat;
     evaluator := None;
     loop := {| candidate_point_calculator :=
                  grid_calculator 3%nat {| parameters := variables |};
                loop_model := 2%nat;
                loop_space := {| parameters := variables |};
                update_interval := 1;
                loop_state := {| ls_X := [2; 8]; ls_Y := [4; 2];
                                 iteration := 0 |} |} |}.

Definition grid_heap : list (@PyObject point output) :=
  [GPRegressionObj
     {| kern := Matern52 1 1%Q false;
        gp_X := [2; 8]; gp_Y := [4; 2];
        Gaussian_noise := Free;
        gp_calls := [optimize_call Free; update_call 2] |};
   GPyModelWrapperObj 0%nat; GPyModelWrapperObj 0%nat;
   AcquisitionObj ExpectedImprovement [VRef 2%nat]].

(** The object that [config EI false 1] constructs when the calculator the
    parent class builds is [ticking_calculator]; its heap is [grid_heap]. *)
Definition ticking_object : @GPBayesianOptimization variable point output :=
  {| attrs := config EI false 1;
     space := {| parameters := variables |};
     model := 2%nat;
     acquisition := 3%nat;
     evaluator := None;
     loop := {| candidate_point_calculator :=
                  ticking_calculator 3%nat {| parameters := variables |};
                loop_model := 2%nat;
                loop_space := {| parameters := variables |};
                update_interval := 1;
                loop_state := {| ls_X := [2; 8]; ls_Y := [4; 2];
                                 iteration := 0 |} |} |}.

(** The scenario configuration with the three remaining keyword arguments
    changed. *)
Definition other_config (t : AcquisitionType) (noiseless : bool)
  : @Config variable point output :=
  {| variables_list := variables;
     X := [2; 8];
     Y := [4; 2];
     noiseless := noiseless;
     acquisition_type := t;
     normalize_Y := false;
     acquisition_optimizer_type := LBFGS;
     model_update_interval := 5 |}.

(** A calculator that finds nothing, and records the visit in the loop
    state it is handed. *)
Definition empty_calculator (acquisition : addr) (sp : @ParameterSpace variable)
  : @Calculator point output :=
  {| compute_next_points := fun ls h =>
       (inr [], ({| ls_X := ls_X ls; ls_Y := ls_Y ls;
                    iteration := iteration ls + 1 |}, h)) |}.

Definition empty_object : @GPBayesianOptimization variable point output :=
  {| attrs := config EI false 1;
     space := {| parameters := variables |};
     model := 2%nat;
     acquisition := 3%nat;
     evaluator := None;
     loop := {| candidate_point_calculator :=
                  empty_calculator 3%nat {| parameters := variables |};
                loop_model := 2%nat;
                loop_space := {| parameters := variables |};
                update_interval := 1;
                loop_state := {| ls_X := [2; 8]; ls_Y := [4; 2];
                                 iteration := 0 |} |} |}.

End Scenario.

(** * Properties *)

Section Properties.

Context {variable point output : Type}.
Context (contains : @ParameterSpace variable -> point -> bool).
Context (default_calculator : addr -> @ParameterSpace variable -> @Calculator point output).

Local Abbreviation Heap := (list (@PyObject point output)).
Local Abbreviation Config := (@Config variable point output).
Local Abbreviation init := (GPBayesianOptimization__init__ contains default_calculator).
Local Abbreviation space_of self := ({| parameters := variables_list self |}).

(** ** The heap *)

Lemma lookup_past (h l : Heap) (i : nat) : (h ++ l) !! (i + length h)%nat = l !! i.
Proof.
  rewrite lookup_app_r by lia. f_equal. lia.
Qed.

Lemma lookup_fresh (h l : Heap) : (h ++ l) !! length h = l !! 0%nat.
Proof.
  exact (lookup_past h l 0).
Qed.

Lemma mutate_gp_fresh (h rest : Heap) g f :
  mutate_gp (length h) f (h ++ GPRegressionObj g :: rest)
  = (tt, h ++ GPRegressionObj (f g) :: rest).
Proof.
  unfold mutate_gp. rewrite lookup_fresh.
  change ((GPRegressionObj g :: rest) !! 0%nat) with (Some (GPRegressionObj g)).
  cbv beta iota.
  rewrite insert_app_r_alt by lia. rewrite Nat.sub_diag. reflexivity.
Qed.

Lemma _model_chooser_eq (self : Config) (h : Heap) :
  _model_chooser self h
  = (S (S (length h)),
     h ++ [GPRegressionObj (chosen_gp self);
           GPyModelWrapperObj (length h); GPyModelWrapperObj (length h)]).
Proof.
  unfold _model_chooser, bind, alloc, ret, chosen_gp.
  rewrite mutate_gp_fresh.
  rewrite <- !app_assoc. simpl.
  destruct (noiseless self).
  - rewrite mutate_gp_fresh.
    rewrite !length_app. simpl.
    rewrite <- !app_assoc. simpl.
    f_equal. lia.
  - rewrite !length_app. simpl.
    rewrite <- !app_assoc. simpl.
    f_equal. lia.
Qed.

Lemma _acquisition_chooser_eq (self : Config) (m : addr) (h : Heap) :
  _acquisition_chooser self m h
  = (length h,
     h ++ [AcquisitionObj (acquisition_class (acquisition_type self)) [VRef m]]).
Proof.
  unfold _acquisition_chooser, alloc.
  destruct (acquisition_type self); reflexivity.
Qed.

(** ** The constructor, step by step *)

Lemma super_arguments_eq (self : Config) (h : Heap) :
  super_arguments self h
  = ({| arg_model := S (S (length h));
        arg_space := {| parameters := variables_list self |};
        arg_acquisition := S (S (S (length h)));
        arg_X_init := X self;
        arg_Y_init := Y self;
        arg_candidate_point_calculator := None |},
     h ++ [GPRegressionObj (chosen_gp self);
           GPyModelWrapperObj (length h); GPyModelWrapperObj (length h);
           AcquisitionObj (acquisition_class (acquisition_type self))
                          [VRef (S (S (length h)))]]).
Proof.
  unfold super_arguments, bind, ret, _evaluator_chooser.
  rewrite _model_chooser_eq, _acquisition_chooser_eq.
  rewrite length_app. simpl length.
  rewrite <- app_assoc. simpl.
  repeat f_equal; lia.
Qed.

Lemma surrogate_update_fresh (h rest : Heap) g Xs Ys :
  surrogate_update (S (S (length h))) Xs Ys
    (h ++ GPRegressionObj g :: GPyModelWrapperObj (length h)
          :: GPyModelWrapperObj (length h) :: rest)
  = (tt, h ++ GPRegressionObj (set_training_data Xs Ys g)
              :: GPyModelWrapperObj (length h)
              :: GPyModelWrapperObj (length h) :: rest).
Proof.
  unfold surrogate_update.
  rewrite (lookup_past h _ 2).
  change ((GPRegressionObj g :: GPyModelWrapperObj (length h)
             :: GPyModelWrapperObj (length h) :: rest) !! 2%nat)
    with (Some (@GPyModelWrapperObj point output (length h))).
  cbv beta iota.
  apply mutate_gp_fresh.
Qed.

(** The object and the heap a successful construction yields. *)
Lemma init_eq (self : Config) (h : Heap) :
  init self h
  = if forallb (contains {| parameters := variables_list self |}) (X self)
    then inr ({| attrs := self;
                 space := {| parameters := variables_list self |};
                 model := S (S (length h));
                 acquisition := S (S (S (length h)));
                 evaluator := None;
                 loop := {| candidate_point_calculator :=
                              default_calculator (S (S (S (length h))))
                                {| parameters := variables_list self |};
                            loop_model := S (S (length h));
                            loop_space := {| parameters := variables_list self |};
                            update_interval := 1;
                            loop_state := {| ls_X := X self; ls_Y := Y self;
                                             iteration := 0 |} |} |},
              h ++ [GPRegressionObj
                      (set_training_data (X self) (Y self) (chosen_gp self));
                    GPyModelWrapperObj (length h); GPyModelWrapperObj (length h);
                    AcquisitionObj (acquisition_class (acquisition_type self))
                                   [VRef (S (S (length h)))]])
    else inl InvalidDomainError.
Proof.
  unfold GPBayesianOptimization__init__.
  rewrite super_arguments_eq.
  unfold BayesianOptimizationLoop__init__.
  cbn [arg_space arg_X_init arg_model arg_Y_init arg_acquisition
       arg_candidate_point_calculator].
  destruct (forallb _ _); [|reflexivity].
  rewrite surrogate_update_fresh. reflexivity.
Qed.

Lemma init_inv (self : Config) (h : Heap) obj h' :
  init self h = inr (obj, h') ->
  forallb (contains (space_of self)) (X self) = true
  /\ attrs obj = self
  /\ space obj = space_of self
  /\ model obj = S (S (length h))
  /\ acquisition obj = S (S (S (length h)))
  /\ evaluator obj = None
  /\ loop obj = {| candidate_point_calculator :=
                     default_calculator (S (S (S (length h)))) (space_of self);
                   loop_model := S (S (length h));
                   loop_space := space_of self;
                   update_interval := 1;
                   loop_state := {| ls_X := X self; ls_Y := Y self;
                                    iteration := 0 |} |}
  /\ h' = h ++ [GPRegressionObj
                  (set_training_data (X self) (Y self) (chosen_gp self));
                GPyModelWrapperObj (length h); GPyModelWrapperObj (length h);
                AcquisitionObj (acquisition_class (acquisition_type self))
                               [VRef (S (S (length h)))]].
Proof.
  rewrite init_eq.
  destruct (forallb _ _); [|discriminate].
  intros H. injection H as <- <-. repeat split; reflexivity.
Qed.

(** Reads the object [n] places past the end of the old heap. *)
Ltac heap_lookup n :=
  match goal with
  | |- (?h ++ ?l) !! _ = _ =>
      transitivity (l !! n); [exact (lookup_past h l n) | reflexivity]
  end.

(** ** The surrogate model *)

(** C10: with [noiseless=True], the GP model that reaches the parent
    constructor is the Matern52 model (variance 1, ARD off, input dimension
    the length of [variables_list]) on the initial data, and the calls it
    has received are exactly: [optimize] while the noise parameter was still
    free, then [constrain_fixed(0.001)]; no further [optimize] follows the
    constraint.  This holds right after [_model_chooser] and still holds
    when the parent constructor is called. *)
Theorem noiseless_model_optimized_before_noise_fixed (self : Config) (h : Heap) :
  noiseless self = true ->
  let final :=
    {| kern := Matern52 (length (variables_list self)) 1%Q false;
       gp_X := X self; gp_Y := Y self;
       Gaussian_noise := Fixed (1 # 1000)%Q;
       gp_calls := [optimize_call Free; constrain_fixed_call (1 # 1000)%Q] |} in
  (let '(m, h1) := _model_chooser self h in
   exists g, h1 !! m = Some (GPyModelWrapperObj g)
             /\ h1 !! g = Some (GPRegressionObj final))
  /\ (let '(a, h2) := super_arguments self h in
      exists g, h2 !! arg_model a = Some (GPyModelWrapperObj g)
                /\ h2 !! g = Some (GPRegressionObj final)).
Proof.
  intros Hn final.
  assert (Hg : chosen_gp self = final).
  { unfold chosen_gp. rewrite Hn. reflexivity. }
  rewrite _model_chooser_eq, super_arguments_eq, Hg.
  cbn [arg_model].
  split; exists (length h); split.
  - heap_lookup 2%nat.
  - rewrite lookup_fresh. reflexivity.
  - heap_lookup 2%nat.
  - rewrite lookup_fresh. reflexivity.
Qed.

(** ** The acquisition *)

(** C3: after a successful construction, [self.acquisition] is an instance
    of the class that corresponds to [acquisition_type], built from a
    reference to [self.model], which is the wrapper of the constructed GP
    model.  The parent constructor is called with these very objects as
    [acquisition] and [model], the acquisition being then already what it is
    at the end, and what that call builds is the loop of the object: its
    model is [self.model], its space is [self.space], and its candidate
    point calculator is the one the parent class builds from
    [self.acquisition] and [self.space]. *)
Theorem constructor_builds_loop_with_chosen_acquisition
  (self : Config) (h : Heap) obj h' :
  init self h = inr (obj, h') ->
  h' !! acquisition obj
    = Some (AcquisitionObj (acquisition_class (acquisition_type self))
                           [VRef (model obj)])
  /\ (exists g gp, h' !! model obj = Some (GPyModelWrapperObj g)
                   /\ h' !! g = Some (GPRegressionObj gp))
  /\ arg_acquisition (fst (super_arguments self h)) = acquisition obj
  /\ arg_model (fst (super_arguments self h)) = model obj
  /\ (let '(a, h1) := super_arguments self h in
      h1 !! arg_acquisition a
        = Some (AcquisitionObj (acquisition_class (acquisition_type self))
                               [VRef (arg_model a)])
      /\ BayesianOptimizationLoop__init__ contains default_calculator a h1
         = inr (loop obj, h'))
  /\ candidate_point_calculator (loop obj)
     = default_calculator (acquisition obj) (space obj)
  /\ loop_model (loop obj) = model obj
  /\ loop_space (loop obj) = space obj.
Proof.
  intros H.
  assert (Hparent :
    let '(a, h1) := super_arguments self h in
    BayesianOptimizationLoop__init__ contains default_calculator a h1
    = inr (loop obj, h')).
  { unfold GPBayesianOptimization__init__ in H.
    destruct (super_arguments self h) as [a h1].
    destruct (BayesianOptimizationLoop__init__ _ _ a h1) as [e|[l h2]];
      [discriminate|].
    injection H as <- <-. reflexivity. }
  apply init_inv in H.
  destruct H as (_ & _ & Hs & Hm & Ha & _ & Hl & ->).
  rewrite super_arguments_eq in Hparent.
  rewrite Hm, Ha, Hs, Hl, super_arguments_eq.
  cbn [fst arg_acquisition arg_model candidate_point_calculator loop_model
       loop_space].
  split; [heap_lookup 3%nat|].
  split.
  { exists (length h). eexists. split.
    - heap_lookup 2%nat.
    - rewrite lookup_fresh. reflexivity. }
  split; [reflexivity|]. split; [reflexivity|].
  split.
  { split; [heap_lookup 3%nat|].
    rewrite Hl in Hparent. exact Hparent. }
  repeat split.
Qed.

Lemma chooses_inv (self : Config) (m : addr) (h : Heap) cls args :
  chooses self m h cls args ->
  cls = acquisition_class (acquisition_type self) /\ args = [VRef m].
Proof.
  unfold chooses. rewrite _acquisition_chooser_eq, lookup_fresh.
  intros H. injection H as <- <-. split; reflexivity.
Qed.

Lemma chooses_intro (self : Config) (m : addr) (h : Heap) :
  chooses self m h (acquisition_class (acquisition_type self)) [VRef m].
Proof.
  unfold chooses. rewrite _acquisition_chooser_eq, lookup_fresh. reflexivity.
Qed.

(** C4, as amended: the acquisition classes a caller can select are exactly
    the three the module imports, ExpectedImprovement,
    ProbabilityOfImprovement and NegativeLowerConfidenceBound;
    EntropySearch is exported by the acquisitions package but not among
    them. *)
Theorem selectable_acquisitions (cls : AcquisitionClass) :
  (@selectable variable point output cls <-> In cls acquisitions_imported)
  /\ In EntropySearch acquisitions_exports
  /\ ~ In EntropySearch acquisitions_imported.
Proof.
  split; [split|].
  - intros (self & m & h & args & H).
    apply chooses_inv in H. destruct H as [-> _].
    destruct (acquisition_type self); simpl; auto.
  - intros H.
    assert (exists t, acquisition_class t = cls) as [t <-].
    { simpl in H. destruct H as [<-|[<-|[<-|[]]]];
        [exists EI | exists NLCB | exists PI]; reflexivity. }
    pose (self := {| variables_list := @nil variable; X := @nil point;
                     Y := @nil output; noiseless := false;
                     acquisition_type := t; normalize_Y := true;
                     acquisition_optimizer_type := LBFGS;
                     model_update_interval := 1 |}).
    exists self, 0%nat, [], [VRef 0%nat].
    exact (chooses_intro self 0%nat []).
  - split; simpl; [tauto | intros [H|[H|[H|[]]]]; discriminate].
Qed.

(** C6, as amended: whatever the configuration, the acquisition is built
    from the model reference alone; no real-valued argument reaches it. *)
Theorem acquisition_built_from_model_alone
  (self : Config) (m : addr) (h : Heap) cls args :
  chooses self m h cls args ->
  args = [VRef m] /\ forall xi : Q, ~ In (VFloat xi) args.
Proof.
  intros H. apply chooses_inv in H. destruct H as [_ ->].
  split; [reflexivity|].
  intros xi [E|[]]. discriminate.
Qed.

(** ** The evaluator and the unused configuration *)

(** C8: the evaluator is [None] for every configuration, [None] is what the
    parent constructor receives as [candidate_point_calculator], the
    optimizer type is kept on the object, and changing it changes neither
    the arguments of the parent constructor nor the loop that is built. *)
Theorem evaluator_is_always_None (self : Config) (h : Heap) :
  @_evaluator_chooser variable point output self = None
  /\ arg_candidate_point_calculator (fst (super_arguments self h)) = None
  /\ (forall o : OptimizerType,
        super_arguments (with_acquisition_optimizer_type self o) h
        = super_arguments self h
        /\ constructed_loop contains default_calculator
             (with_acquisition_optimizer_type self o) h
           = constructed_loop contains default_calculator self h)
  /\ match init self h with
     | inr (obj, _) =>
         acquisition_optimizer_type (attrs obj) = acquisition_optimizer_type self
         /\ evaluator obj = None
     | inl _ => True
     end.
Proof.
  split; [reflexivity|]. split; [rewrite super_arguments_eq; reflexivity|].
  split.
  - intros o. split.
    + rewrite !super_arguments_eq. reflexivity.
    + unfold constructed_loop. rewrite !init_eq.
      cbn [with_acquisition_optimizer_type X variables_list].
      destruct (forallb _ _); reflexivity.
  - rewrite init_eq. destruct (forallb _ _); [split; reflexivity | exact I].
Qed.

(** C2: [model_update_interval] defaults to 1; its value is stored on the
    object and goes no further: the parent constructor receives the same
    arguments on the same heap, and the loop it builds is the same, for
    every value. *)
Theorem model_update_interval_not_forwarded (self : Config) (k : Z) (h : Heap) :
  model_update_interval (default_config (variables_list self) (X self) (Y self)) = 1
  /\ super_arguments (with_model_update_interval self k) h = super_arguments self h
  /\ constructed_loop contains default_calculator
       (with_model_update_interval self k) h
     = constructed_loop contains default_calculator self h
  /\ match init (with_model_update_interval self k) h with
     | inr (obj, _) =>
         model_update_interval (attrs obj) = k
         /\ update_interval (loop obj) = 1
     | inl _ => True
     end.
Proof.
  split; [reflexivity|].
  split; [rewrite !super_arguments_eq; reflexivity|].
  split.
  { unfold constructed_loop. rewrite !init_eq.
    cbn [with_model_update_interval X variables_list].
    destruct (forallb _ _); reflexivity. }
  rewrite init_eq. cbn [X variables_list with_model_update_interval].
  destruct (forallb _ _); [split; reflexivity | exact I].
Qed.

(** ** Validation of the initial observations *)

Lemma forallb_false_Exists {A} (f : A -> bool) (l : list A) :
  forallb f l = false -> Exists (fun x => f x = false) l.
Proof.
  induction l as [|x l IH]; simpl; [discriminate|].
  destruct (f x) eqn:E; simpl; intros H.
  - apply Exists_cons_tl. auto.
  - apply Exists_cons_hd. exact E.
Qed.

(** C7: either every initial input lies in the parameter space and the
    construction succeeds, or some initial input lies outside it and the
    construction fails with [InvalidDomainError]. *)
Theorem construction_validates_initial_inputs (self : Config) (h : Heap) :
  (Forall (fun x => contains (space_of self) x = true) (X self)
   /\ exists obj h', init self h = inr (obj, h'))
  \/ (Exists (fun x => contains (space_of self) x = false) (X self)
      /\ init self h = inl InvalidDomainError).
Proof.
  rewrite init_eq.
  destruct (forallb _ _) eqn:E.
  - left. split.
    + apply Forall_forall. intros x Hx.
      apply list_elem_of_In in Hx.
      exact (proj1 (forallb_forall _ _) E x Hx).
    + eauto.
  - right. split; [|reflexivity].
    apply forallb_false_Exists. exact E.
Qed.

(** ** Suggesting new locations *)



(** C9: whenever the calculator returns a non-empty sequence,
    [suggest_new_locations] returns the [X] of its first element, whatever
    follows it. *)
Theorem suggest_new_locations_first_candidate
  (self : @GPBayesianOptimization variable point output) (h : Heap)
  (p : CandidatePoint) (rest : list CandidatePoint) ls' h' :
  compute_next_points (candidate_point_calculator (loop self))
    (loop_state (loop self)) h = (inr (p :: rest), (ls', h')) ->
  fst (suggest_new_locations self h) = inr (cp_X p).
Proof.
  intros E. unfold suggest_new_locations. rewrite E. reflexivity.
Qed.

(** ** Running for a fixed number of iterations *)

Context (well_shaped : output -> bool).

Local Abbreviation RunState := (@RunState variable point output).
Local Abbreviation step := (iteration_step contains well_shaped).
Local Abbreviation steps := (iterate_steps contains well_shaped).
Local Abbreviation calculator_of s := (candidate_point_calculator (rs_loop s)).
Local Abbreviation state_of s := (loop_state (rs_loop s)).

Lemma batches_app (a b : list (@Event point)) :
  batches (a ++ b) = batches a ++ batches b.
Proof.
  unfold batches. apply omap_app.
Qed.

(** One iteration with collaborators that keep their contracts: the
    calculator is asked on the current state, the objective on the points
    it proposed, both are appended, the counter advances by one and one
    batch is recorded. *)
Lemma iteration_step_ok (uf : UserFunction) (s : RunState) :
  proposes_within contains (loop_space (rs_loop s)) (calculator_of s) ->
  answers well_shaped uf ->
  exists points ys s1,
    compute_next_points (calculator_of s) (state_of s) (rs_heap s)
    = (inr points, (state_of s, rs_heap s))
    /\ evaluate uf (map cp_X points) = Some ys
    /\ length ys = length (map cp_X points)
    /\ step uf s = inr s1
    /\ calculator_of s1 = calculator_of s
    /\ loop_space (rs_loop s1) = loop_space (rs_loop s)
    /\ iteration (state_of s1) = iteration (state_of s) + 1
    /\ ls_X (state_of s1) = ls_X (state_of s) ++ map cp_X points
    /\ ls_Y (state_of s1) = ls_Y (state_of s) ++ ys
    /\ batches (rs_events s1) = batches (rs_events s) ++ [map cp_X points].
Proof.
  intros Hcalc Huf.
  destruct (Hcalc (state_of s) (rs_heap s)) as (points & E & Hin).
  destruct (Huf (map cp_X points)) as (ys & Ey & Hlen & Hshape).
  exists points, ys. eexists.
  split; [exact E|]. split; [exact Ey|]. split; [exact Hlen|].
  unfold iteration_step. rewrite E. cbv beta iota zeta.
  rewrite Hin, Ey, Hlen, Nat.eqb_refl, Hshape.
  cbv beta iota. cbn [andb].
  split; [reflexivity|].
  cbn [rs_loop rs_events with_loop_state candidate_point_calculator
       loop_space loop_state iteration ls_X ls_Y].
  repeat split.
  rewrite batches_app. f_equal.
  destruct (_ =? 0); reflexivity.
Qed.

(** [k] iterations with such collaborators all succeed, and the state they
    end in holds exactly what the calculator proposed and the objective
    answered, in order. *)
Lemma iterate_steps_ok (uf : UserFunction) :
  answers well_shaped uf ->
  forall (k : nat) (s : RunState),
    proposes_within contains (loop_space (rs_loop s)) (calculator_of s) ->
    exists s' bs outs,
      steps k uf s = inr s'
      /\ calculator_of s' = calculator_of s
      /\ loop_space (rs_loop s') = loop_space (rs_loop s)
      /\ iteration (state_of s') = iteration (state_of s) + Z.of_nat k
      /\ length bs = k
      /\ batches (rs_events s') = batches (rs_events s) ++ bs
      /\ ls_X (state_of s') = ls_X (state_of s) ++ concat bs
      /\ Forall2 (fun b ys => evaluate uf b = Some ys /\ length ys = length b)
                 bs outs
      /\ ls_Y (state_of s') = ls_Y (state_of s) ++ concat outs
      /\ (forall (i : nat) b, bs !! i = Some b ->
            exists si points,
              steps i uf s = inr si
              /\ fst (compute_next_points (calculator_of si) (state_of si)
                        (rs_heap si)) = inr points
              /\ b = map cp_X points).
Proof.
  intros Huf k. induction k as [|k IH]; intros s Hcalc.
  - exists s, [], []. cbn [iterate_steps length concat].
    rewrite !app_nil_r, Z.add_0_r.
    repeat split; try reflexivity; try constructor.
    intros i b Hb. rewrite lookup_nil in Hb. discriminate.
  - destruct (iteration_step_ok uf s Hcalc Huf)
      as (points & ys & s1 & E & Ey & Hlen & Es & Hc & Hsp & Hi & HX & HY & Hb).
    destruct (IH s1) as (s' & bs & outs & Ek & Hc' & Hsp' & Hi' & Hl' & Hb'
                           & HX' & HF' & HY' & Hidx').
    { rewrite Hc, Hsp. exact Hcalc. }
    exists s', (map cp_X points :: bs), (ys :: outs).
    split; [cbn [iterate_steps]; rewrite Es; exact Ek|].
    split; [rewrite Hc'; exact Hc|].
    split; [rewrite Hsp'; exact Hsp|].
    split; [rewrite Hi', Hi; lia|].
    split; [cbn [length]; rewrite Hl'; reflexivity|].
    split; [rewrite Hb', Hb, <- app_assoc; reflexivity|].
    split; [rewrite HX', HX, <- app_assoc; reflexivity|].
    split; [constructor; [split; assumption | exact HF']|].
    split; [rewrite HY', HY, <- app_assoc; reflexivity|].
    intros [|i] b Hlook.
    + cbn in Hlook. injection Hlook as <-.
      exists s, points. split; [reflexivity|].
      split; [rewrite E; reflexivity | reflexivity].
    + cbn in Hlook. destruct (Hidx' i b Hlook) as (si & pts & Esi & Epts & ->).
      exists si, pts. split; [cbn [iterate_steps]; rewrite Es; exact Esi|].
      split; [exact Epts | reflexivity].
Qed.

(** Under [FixedIterationsStoppingCondition n] the loop runs the body until
    the counter is [n]: from a counter [k + 1] below [n] it finishes in the
    state [k + 1] iterations lead to. *)
Lemma run_loop_iterates (uf : UserFunction) (n : Z) :
  answers well_shaped uf ->
  forall (k fuel : nat) (s : RunState),
    proposes_within contains (loop_space (rs_loop s)) (calculator_of s) ->
    iteration (state_of s) + Z.of_nat (S k) = n ->
    (S k <= fuel)%nat ->
    exists s',
      steps (S k) uf s = inr s'
      /\ run_loop contains well_shaped fuel uf
           (FixedIterationsStoppingCondition n) s = Finished s'.
Proof.
  intros Huf k. induction k as [|k IH]; intros fuel s Hcalc Hn Hfuel;
    (destruct fuel as [|fuel]; [lia|]);
    destruct (iteration_step_ok uf s Hcalc Huf)
      as (points & ys & s1 & _ & _ & _ & Es & Hc & Hsp & Hi & _).
  - exists s1. cbn [iterate_steps run_loop]. rewrite Es.
    split; [reflexivity|].
    cbn [should_stop FixedIterationsStoppingCondition].
    replace (n <=? iteration (state_of s1)) with true
      by (symmetry; apply Z.leb_le; lia).
    reflexivity.
  - destruct (IH fuel s1) as (s' & Ek & Erun).
    { rewrite Hc, Hsp. exact Hcalc. }
    { lia. }
    { lia. }
    exists s'. split.
    + change (steps (S (S k)) uf s) with
        (match step uf s with
         | inl err => inl err
         | inr s2 => steps (S k) uf s2
         end).
      rewrite Es. exact Ek.
    + cbn [run_loop]. rewrite Es.
      cbn [should_stop FixedIterationsStoppingCondition].
      replace (n <=? iteration (state_of s1)) with false
        by (symmetry; apply Z.leb_gt; lia).
      exact Erun.
Qed.

(** C1, as amended: on a freshly constructed object, with a calculator
    that raises nothing, writes nothing and proposes points of the space,
    and an objective that answers every batch with one well-shaped output
    per input, [run_optimization] with a positive [n] (and at least [n]
    units of fuel) runs under a stopping condition that holds exactly from
    counter [n] on and finishes in the state [n] iterations of the loop body
    lead to: the counter is [n], exactly [n] batches were evaluated, each
    batch is what the calculator proposed on the state of that iteration,
    and the observations are the initial ones followed by the batches and
    by what the objective answered on them. *)
Theorem run_optimization_executes_n_batches
  (self : Config) (h : Heap) obj h0 (uf : UserFunction) (n : Z) (fuel : nat) :
  init self h = inr (obj, h0) ->
  proposes_within contains (loop_space (loop obj))
    (candidate_point_calculator (loop obj)) ->
  answers well_shaped uf ->
  0 < n ->
  (Z.to_nat n <= fuel)%nat ->
  (forall ls : @LoopState point output,
     should_stop (FixedIterationsStoppingCondition n) ls = true
     <-> n <= iteration ls)
  /\ exists s',
      run_optimization contains well_shaped fuel uf n (start obj h0)
      = Finished s'
      /\ steps (Z.to_nat n) uf (start obj h0) = inr s'
      /\ iteration (state_of s') = n
      /\ length (batches (rs_events s')) = Z.to_nat n
      /\ ls_X (state_of s') = X self ++ concat (batches (rs_events s'))
      /\ (exists outs,
            Forall2 (fun b ys => evaluate uf b = Some ys
                                 /\ length ys = length b)
                    (batches (rs_events s')) outs
            /\ ls_Y (state_of s') = Y self ++ concat outs)
      /\ (forall (i : nat) b,
            batches (rs_events s') !! i = Some b ->
            exists si points,
              steps i uf (start obj h0) = inr si
              /\ fst (compute_next_points (calculator_of si) (state_of si)
                        (rs_heap si)) = inr points
              /\ b = map cp_X points).
Proof.
  intros Hinit Hcalc Huf Hn Hfuel. split.
  { intros ls. apply Z.leb_le. }
  apply init_inv in Hinit.
  destruct Hinit as (_ & _ & _ & _ & _ & _ & Hloop & _).
  set (s0 := start obj h0).
  assert (Hi : iteration (state_of s0) = 0)
    by (unfold s0, start; cbn [rs_loop]; rewrite Hloop; reflexivity).
  assert (HX0 : ls_X (state_of s0) = X self)
    by (unfold s0, start; cbn [rs_loop]; rewrite Hloop; reflexivity).
  assert (HY0 : ls_Y (state_of s0) = Y self)
    by (unfold s0, start; cbn [rs_loop]; rewrite Hloop; reflexivity).
  assert (Hcalc0 : proposes_within contains (loop_space (rs_loop s0))
                     (calculator_of s0)) by exact Hcalc.
  destruct (Z.to_nat n) as [|k] eqn:Ek; [lia|].
  destruct (run_loop_iterates uf n Huf k fuel s0 Hcalc0) as (s' & Esteps & Erun);
    [lia | exact Hfuel |].
  destruct (iterate_steps_ok uf Huf (S k) s0 Hcalc0)
    as (s'' & bs & outs & Esteps' & _ & _ & Hit & Hlen & Hb & HX & HF & HY & Hidx).
  rewrite Esteps in Esteps'. injection Esteps' as <-.
  change (batches (rs_events s0)) with (@nil (list point)) in Hb.
  cbn [app] in Hb.
  exists s'. rewrite Hb.
  split; [exact Erun|]. split; [exact Esteps|].
  split; [lia|]. split; [exact Hlen|].
  split; [rewrite HX, HX0; reflexivity|].
  split; [exists outs; split; [exact HF | rewrite HY, HY0; reflexivity]|].
  exact Hidx.
Qed.

End Properties.

(** * The scenario, evaluated *)

Lemma grid_calculator_proposes_within a sp :
  proposes_within Scenario.contains {| parameters := Scenario.variables |}
    (Scenario.grid_calculator a sp).
Proof.
  intros ls h. eexists. split; [reflexivity|].
  cbn [map cp_X forallb Scenario.contains parameters Scenario.variables
       fst snd].
  repeat (apply andb_true_intro; split); try reflexivity;
    apply Z.leb_le;
    match goal with
    | |- context [ ?x mod 11 ] =>
        pose proof (Z.mod_pos_bound x 11 eq_refl); lia
    end.
Qed.

Lemma objective_answers :
  answers Scenario.well_shaped Scenario.objective.
Proof.
  intros xs. eexists. split; [reflexivity|]. split.
  - apply length_map.
  - apply forallb_forall. reflexivity.
Qed.

(** With [model_update_interval=2] and two iterations the model is still
    re-fit at iteration counts 0 and 1. *)
Lemma interval_two_refits_every_iteration :
  Scenario.refit_iterations (Scenario.config EI false 2) 2 = Some [0; 1]
  /\ 1 mod 2 <> 0.
Proof.
  split; [vm_compute; reflexivity | discriminate].
Qed.

(** The noiseless scenario: the model the parent constructor receives. *)
Lemma noiseless_model_witness :
  noiseless (Scenario.config NLCB true 1) = true
  /\ exists g,
      snd (super_arguments (Scenario.config NLCB true 1) []) !! 2%nat
        = Some (GPyModelWrapperObj g)
      /\ snd (super_arguments (Scenario.config NLCB true 1) []) !! g
         = Some (GPRegressionObj
                   {| kern := Matern52 1 1%Q false;
                      gp_X := [2; 8]; gp_Y := [4; 2];
                      Gaussian_noise := Fixed (1 # 1000)%Q;
                      gp_calls := [optimize_call Free;
                                   constrain_fixed_call (1 # 1000)%Q] |}).
Proof.
  split; [reflexivity|].
  exact (proj2 (noiseless_model_optimized_before_noise_fixed
                  (Scenario.config NLCB true 1) [] eq_refl)).
Defined.

(** The scenario with [acquisition_type=PI]: the acquisition, and the
    calculator of the loop built from it. *)
Lemma chosen_acquisition_witness :
  exists obj h',
    GPBayesianOptimization__init__ Scenario.contains Scenario.grid_calculator
      (Scenario.config PI false 1) [] = inr (obj, h')
    /\ h' !! acquisition obj
       = Some (AcquisitionObj ProbabilityOfImprovement [VRef (model obj)])
    /\ candidate_point_calculator (loop obj)
       = Scenario.grid_calculator (acquisition obj) (space obj)
    /\ loop_model (loop obj) = model obj.
Proof.
  eexists. eexists. split; [reflexivity|].
  pose proof (constructor_builds_loop_with_chosen_acquisition
                Scenario.contains Scenario.grid_calculator
                (Scenario.config PI false 1) [] _ _ eq_refl)
    as (H1 & _ & _ & _ & _ & H6 & H7 & _).
  split; [exact H1|]. split; [exact H6 | exact H7].
Defined.

(** The scenario with [acquisition_type=NLCB] and the model at address 2. *)
Lemma acquisition_arguments_witness :
  chooses (Scenario.config NLCB false 1) 2%nat [] NegativeLowerConfidenceBound
          [VRef 2%nat]
  /\ forall xi : Q, ~ In (VFloat xi) [VRef 2%nat].
Proof.
  assert (H : chooses (Scenario.config NLCB false 1) 2%nat []
                NegativeLowerConfidenceBound [VRef 2%nat]) by reflexivity.
  split; [exact H|].
  exact (proj2 (acquisition_built_from_model_alone
                  (Scenario.config NLCB false 1) 2%nat [] _ _ H)).
Defined.

(** [grid_object] and [grid_heap] are what the constructor yields. *)
Lemma grid_object_constructed :
  GPBayesianOptimization__init__ Scenario.contains Scenario.grid_calculator
    (Scenario.config EI false 1) []
  = inr (Scenario.grid_object, Scenario.grid_heap).
Proof.
  reflexivity.
Qed.

(** [ticking_object] is what the constructor yields when the calculator of
    the parent class is [ticking_calculator]. *)
Lemma ticking_object_constructed :
  GPBayesianOptimization__init__ Scenario.contains Scenario.ticking_calculator
    (Scenario.config EI false 1) []
  = inr (Scenario.ticking_object, Scenario.grid_heap).
Proof.
  reflexivity.
Qed.



(** The grid calculator returns a batch of two points; the suggestion is
    the first. *)
Lemma first_candidate_witness :
  compute_next_points
    (candidate_point_calculator (loop Scenario.grid_object))
    (loop_state (loop Scenario.grid_object)) Scenario.grid_heap
  = (inr [ {| cp_X := 6 |}; {| cp_X := 0 |} ],
     (loop_state (loop Scenario.grid_object), Scenario.grid_heap))
  /\ fst (suggest_new_locations Scenario.grid_object Scenario.grid_heap) = inr 6.
Proof.
  split; [reflexivity|].
  exact (suggest_new_locations_first_candidate
           Scenario.grid_object Scenario.grid_heap
           {| cp_X := 6 |} [ {| cp_X := 0 |} ] _ _ eq_refl).
Defined.

(** Three iterations on the scenario with [acquisition_type=NLCB]. *)
Lemma run_optimization_witness :
  exists obj h0 s',
    GPBayesianOptimization__init__ Scenario.contains Scenario.grid_calculator
      (Scenario.config NLCB false 1) [] = inr (obj, h0)
    /\ 0 < 3
    /\ run_optimization Scenario.contains Scenario.well_shaped 3
         Scenario.objective 3 (start obj h0) = Finished s'
    /\ iteration (loop_state (rs_loop s')) = 3
    /\ batches (rs_events s') = [[6; 0]; [1; 6]; [7; 1]]
    /\ ls_X (loop_state (rs_loop s')) = [2; 8] ++ [6; 0; 1; 6; 7; 1]
    /\ ls_Y (loop_state (rs_loop s')) = [4; 2] ++ [1; 25; 16; 1; 4; 16].
Proof.
  eexists. eexists.
  assert (H03 : 0 < 3) by reflexivity.
  destruct (run_optimization_executes_n_batches
              Scenario.contains Scenario.grid_calculator Scenario.well_shaped
              (Scenario.config NLCB false 1) [] _ _
              Scenario.objective 3 3%nat eq_refl
              (grid_calculator_proposes_within _ _) objective_answers H03
              (le_n 3))
    as (_ & s' & Hrun & _ & Hit & _).
  exists s'. split; [reflexivity|]. split; [exact H03|].
  split; [exact Hrun|]. split; [exact Hit|].
  vm_compute in Hrun. injection Hrun as <-.
  repeat split.
Defined.

(** C1, as stated, fails.  A second [run_optimization(objective, 3)] on the
    object a first one has finished with evaluates one batch and ends with
    the counter at 4; and with an objective that raises, the run on a fresh
    object aborts with [EvaluationError], no batch evaluated and the
    counter at 0. *)
Lemma run_optimization_not_always_n_batches :
  (exists s,
     Scenario.run_again (Scenario.config NLCB false 1) 3 = Some (Finished s)
     /\ iteration (loop_state (rs_loop s)) = 4
     /\ length (batches (rs_events s)) = 1%nat)
  /\ (exists s,
        Scenario.construct_and_run_with Scenario.failing_objective
          (Scenario.config NLCB false 1) 3
        = Some (Raised EvaluationError s)
        /\ iteration (loop_state (rs_loop s)) = 0
        /\ batches (rs_events s) = []).
Proof.
  split; eexists; (split; [vm_compute; reflexivity|]); split; reflexivity.
Qed.

(** C4, as stated, fails: EntropySearch is exported by the acquisitions
    package and no configuration makes the constructor instantiate it. *)
Lemma EntropySearch_not_selectable :
  In EntropySearch acquisitions_exports
  /\ ~ @selectable Scenario.variable Scenario.point Scenario.output EntropySearch.
Proof.
  split; [simpl; tauto|].
  intros (self & m & h & args & H).
  apply chooses_inv in H. destruct H as [H _].
  destruct (acquisition_type self); discriminate.
Qed.

(** C6, as stated, fails: for EI no configuration makes a real-valued
    argument reach the acquisition. *)
Lemma EI_receives_no_exploration_parameter :
  ~ @receives_exploration_parameter
      Scenario.variable Scenario.point Scenario.output EI.
Proof.
  intros (self & m & h & cls & args & xi & _ & H & Hin).
  apply chooses_inv in H. destruct H as [_ ->].
  destruct Hin as [E|[]]. discriminate.
Qed.

(** * Further properties of the constructor and of the suggestion *)

Section Construction.

Context {variable point output : Type}.

Local Abbreviation Heap := (list (@PyObject point output)).
Local Abbreviation Config := (@Config variable point output).

(** The heap the constructor's own code leaves for the parent constructor. *)
Lemma super_arguments_heap (self : Config) (h : Heap) :
  snd (super_arguments self h)
  = h ++ [GPRegressionObj (chosen_gp self);
          GPyModelWrapperObj (length h); GPyModelWrapperObj (length h);
          AcquisitionObj (acquisition_class (acquisition_type self))
                         [VRef (S (S (length h)))]].
Proof.
  rewrite super_arguments_eq. reflexivity.
Qed.

Lemma chosen_gp_calls (self : Config) :
  gp_calls (chosen_gp self)
  = optimize_call Free
      :: (if noiseless self then [constrain_fixed_call (1 # 1000)%Q] else []).
Proof.
  unfold chosen_gp. destruct (noiseless self); reflexivity.
Qed.

Lemma chosen_gp_noise (self : Config) :
  Gaussian_noise (chosen_gp self)
  = if noiseless self then Fixed (1 # 1000)%Q else Free.
Proof.
  unfold chosen_gp. destruct (noiseless self); reflexivity.
Qed.

Lemma chosen_gp_data (self : Config) :
  gp_X (chosen_gp self) = X self
  /\ gp_Y (chosen_gp self) = Y self
  /\ kern (chosen_gp self) = Matern52 (length (variables_list self)) 1%Q false.
Proof.
  unfold chosen_gp. destruct (noiseless self); repeat split.
Qed.

Ltac past n :=
  match goal with
  | |- (?h ++ ?l) !! _ = _ =>
      transitivity (l !! n); [exact (lookup_past h l n) | reflexivity]
  end.

(** X1: for every configuration, the GP model that reaches the parent
    constructor has had its hyperparameters optimized exactly once, as the
    first call it received and with the noise parameter free; the noise is
    left free exactly when [noiseless] is false, and then [optimize] is the
    only call. *)
Theorem model_optimized_exactly_once (self : Config) (h : Heap) :
  let '(a, h2) := super_arguments self h in
  exists g gp,
    h2 !! arg_model a = Some (GPyModelWrapperObj g)
    /\ h2 !! g = Some (GPRegressionObj gp)
    /\ (exists rest, gp_calls gp = optimize_call Free :: rest
                     /\ forall noise, ~ In (optimize_call noise) rest)
    /\ (Gaussian_noise gp = Free <-> noiseless self = false)
    /\ (noiseless self = false -> gp_calls gp = [optimize_call Free]).
Proof.
  rewrite super_arguments_eq. cbn [arg_model].
  exists (length h), (chosen_gp self).
  split; [past 2%nat|]. split; [rewrite lookup_fresh; reflexivity|].
  rewrite chosen_gp_calls, chosen_gp_noise.
  destruct (noiseless self).
  - split; [|split].
    + eexists. split; [reflexivity|].
      intros noise [E|[]]. discriminate.
    + split; discriminate.
    + discriminate.
  - split; [|split].
    + exists []. split; [reflexivity|]. intros noise [].
    + split; reflexivity.
    + reflexivity.
Qed.

(** X2: [normalize_Y], [acquisition_optimizer_type] and
    [model_update_interval] never reach the model, the acquisition or the
    parent constructor: two calls that agree on the other five arguments
    give the same heap and the same arguments of the parent call. *)
Theorem unused_arguments_change_nothing (c1 c2 : Config) (h : Heap) :
  variables_list c1 = variables_list c2 ->
  X c1 = X c2 ->
  Y c1 = Y c2 ->
  noiseless c1 = noiseless c2 ->
  acquisition_type c1 = acquisition_type c2 ->
  super_arguments c1 h = super_arguments c2 h.
Proof.
  intros Hv HX HY Hn Ht.
  rewrite !super_arguments_eq.
  unfold chosen_gp. rewrite Hv, HX, HY, Hn, Ht. reflexivity.
Qed.

(** X3: up to the call of the parent constructor, the constructor leaves
    every object that was already on the heap as it was; the model and the
    acquisition it hands on are new objects, at addresses that held nothing
    before, and they are two different objects. *)
Theorem constructor_leaves_existing_objects (self : Config) (h : Heap) :
  let '(a, h2) := super_arguments self h in
  (forall i : nat, (i < length h)%nat -> h2 !! i = h !! i)
  /\ h !! arg_model a = None
  /\ h !! arg_acquisition a = None
  /\ is_Some (h2 !! arg_model a)
  /\ is_Some (h2 !! arg_acquisition a)
  /\ arg_model a <> arg_acquisition a.
Proof.
  rewrite super_arguments_eq. cbn [arg_model arg_acquisition].
  split; [intros i Hi; apply lookup_app_l; exact Hi|].
  split; [apply lookup_ge_None; lia|].
  split; [apply lookup_ge_None; lia|].
  split; [eexists; past 2%nat|].
  split; [eexists; past 3%nat|].
  lia.
Qed.

(** X4: two constructions in a row share nothing.  The second one gets a
    model, an acquisition and a GP model of its own, and leaves the model,
    the acquisition and the GP model of the first as they were. *)
Theorem two_constructions_share_nothing (c1 c2 : Config) (h : Heap) :
  let '(a1, h1) := super_arguments c1 h in
  let '(a2, h2) := super_arguments c2 h1 in
  arg_model a1 <> arg_model a2
  /\ arg_acquisition a1 <> arg_acquisition a2
  /\ h2 !! arg_model a1 = h1 !! arg_model a1
  /\ h2 !! arg_acquisition a1 = h1 !! arg_acquisition a1
  /\ exists g1 g2,
      h1 !! arg_model a1 = Some (GPyModelWrapperObj g1)
      /\ h2 !! arg_model a2 = Some (GPyModelWrapperObj g2)
      /\ g1 <> g2
      /\ h2 !! g1 = h1 !! g1.
Proof.
  rewrite (super_arguments_eq c1 h).
  set (h1 := h ++ _).
  assert (Hlen : length h1 = (length h + 4)%nat).
  { unfold h1. rewrite length_app. reflexivity. }
  rewrite (super_arguments_eq c2 h1).
  cbn [arg_model arg_acquisition].
  split; [lia|]. split; [lia|].
  split; [apply lookup_app_l; lia|].
  split; [apply lookup_app_l; lia|].
  exists (length h), (length h1).
  split; [unfold h1; past 2%nat|].
  split; [past 2%nat|].
  split; [lia|].
  apply lookup_app_l. lia.
Qed.

(** X5: [_model_chooser] assigns [self.model] twice.  The two wrappers are
    different objects around the same GP model, so the noise constraint
    applied between the two assignments shows through both; the first
    wrapper is dropped: the model handed to the parent constructor and the
    model the acquisition is built from are both the second. *)
Theorem first_wrapper_is_dropped (self : Config) (h : Heap) :
  let '(a, h2) := super_arguments self h in
  let first := S (length h) in
  exists g gp cls,
    h2 !! first = Some (GPyModelWrapperObj g)
    /\ h2 !! arg_model a = Some (GPyModelWrapperObj g)
    /\ first <> arg_model a
    /\ h2 !! g = Some (GPRegressionObj gp)
    /\ Gaussian_noise gp = (if noiseless self then Fixed (1 # 1000)%Q else Free)
    /\ h2 !! arg_acquisition a = Some (AcquisitionObj cls [VRef (arg_model a)]).
Proof.
  rewrite super_arguments_eq. cbn [arg_model arg_acquisition].
  exists (length h), (chosen_gp self),
         (acquisition_class (acquisition_type self)).
  split; [past 1%nat|]. split; [past 2%nat|]. split; [lia|].
  split; [rewrite lookup_fresh; reflexivity|].
  split; [apply chosen_gp_noise|]. past 3%nat.
Qed.

(** X6: the GP model handed to the parent constructor was built on exactly
    the observations handed over as [X_init] and [Y_init], with a kernel
    whose input dimension is the number of variables of the space handed
    over. *)
Theorem model_built_on_initial_observations (self : Config) (h : Heap) :
  let '(a, h2) := super_arguments self h in
  exists g gp,
    h2 !! arg_model a = Some (GPyModelWrapperObj g)
    /\ h2 !! g = Some (GPRegressionObj gp)
    /\ gp_X gp = arg_X_init a
    /\ gp_Y gp = arg_Y_init a
    /\ kern gp = Matern52 (length (parameters (arg_space a))) 1%Q false.
Proof.
  rewrite super_arguments_eq.
  cbn [arg_model arg_X_init arg_Y_init arg_space parameters].
  exists (length h), (chosen_gp self).
  split; [past 2%nat|]. split; [rewrite lookup_fresh; reflexivity|].
  apply chosen_gp_data.
Qed.

(** X8: the class of the acquisition tells the acquisition type: two
    constructions that build acquisitions of the same class had the same
    [acquisition_type]. *)
Theorem acquisition_class_tells_type
  (c1 c2 : Config) (m1 m2 : addr) (h1 h2 : Heap) cls args1 args2 :
  chooses c1 m1 h1 cls args1 ->
  chooses c2 m2 h2 cls args2 ->
  acquisition_type c1 = acquisition_type c2.
Proof.
  intros H1 H2.
  apply chooses_inv in H1. apply chooses_inv in H2.
  destruct H1 as [E1 _]. destruct H2 as [E2 _].
  rewrite E1 in E2.
  destruct (acquisition_type c1), (acquisition_type c2);
    first [reflexivity | discriminate].
Qed.

(** X9: when the calculator returns an empty sequence,
    [suggest_new_locations] raises [IndexError]; what the calculator wrote
    to the loop state and to the heap before that stays written. *)
Theorem suggest_new_locations_empty
  (self : @GPBayesianOptimization variable point output) (h : Heap) ls' h' :
  compute_next_points (candidate_point_calculator (loop self))
    (loop_state (loop self)) h = (inr [], (ls', h')) ->
  let '(r, (self', h2)) := suggest_new_locations self h in
  r = inl IndexError /\ loop_state (loop self') = ls' /\ h2 = h'.
Proof.
  intros E. unfold suggest_new_locations. rewrite E.
  repeat split.
Qed.

End Construction.

(** The scenario under two settings of the unused arguments. *)
Lemma unused_arguments_witness :
  normalize_Y (Scenario.config PI true 1) <> normalize_Y (Scenario.other_config PI true)
  /\ model_update_interval (Scenario.config PI true 1)
     <> model_update_interval (Scenario.other_config PI true)
  /\ super_arguments (Scenario.config PI true 1) []
     = super_arguments (Scenario.other_config PI true) [].
Proof.
  split; [discriminate|]. split; [discriminate|].
  exact (unused_arguments_change_nothing
           (Scenario.config PI true 1) (Scenario.other_config PI true) []
           eq_refl eq_refl eq_refl eq_refl eq_refl).
Defined.

(** Two scenario configurations that both build ExpectedImprovement. *)
Lemma acquisition_class_witness :
  chooses (Scenario.config EI true 1) 2%nat [] ExpectedImprovement [VRef 2%nat]
  /\ chooses (Scenario.other_config EI false) 7%nat [] ExpectedImprovement
       [VRef 7%nat]
  /\ acquisition_type (Scenario.config EI true 1)
     = acquisition_type (Scenario.other_config EI false).
Proof.
  assert (H1 : chooses (Scenario.config EI true 1) 2%nat []
                 ExpectedImprovement [VRef 2%nat]) by reflexivity.
  assert (H2 : chooses (Scenario.other_config EI false) 7%nat []
                 ExpectedImprovement [VRef 7%nat]) by reflexivity.
  split; [exact H1|]. split; [exact H2|].
  exact (acquisition_class_tells_type _ _ _ _ _ _ _ _ _ H1 H2).
Defined.

(** A suggestion on the object whose calculator finds nothing. *)
Lemma suggest_empty_witness :
  compute_next_points
    (candidate_point_calculator (loop Scenario.empty_object))
    (loop_state (loop Scenario.empty_object)) Scenario.grid_heap
  = (inr [], ({| ls_X := [2; 8]; ls_Y := [4; 2]; iteration := 1 |},
              Scenario.grid_heap))
  /\ (let '(r, (self', h2)) :=
        suggest_new_locations Scenario.empty_object Scenario.grid_heap in
      r = inl IndexError
      /\ loop_state (loop self')
         = {| ls_X := [2; 8]; ls_Y := [4; 2]; iteration := 1 |}
      /\ h2 = Scenario.grid_heap).
Proof.
  split; [reflexivity|].
  exact (suggest_new_locations_empty Scenario.empty_object Scenario.grid_heap
           _ _ eq_refl).
Defined.
